(** * User directory service and subjects/faculty listing

    A shallow embedding of the two FastAPI backends of the repository:

    - [user-management/app/api/user.py]: the five route handlers
      [create_user], [get_user], [get_users], [update_user], [delete_user];
    - [school-management/main.py]: [list_of_subject_faculty_teaching], the
      route [get_subjects_faculty] with its response schema;
    - [school-management/populate_db.py]: the population script.

    The SQLAlchemy session is an explicit value threaded through every
    handler: a handler takes the session and returns its outcome together
    with the session it leaves behind.  A raised [HTTPException] is the
    [Raise] outcome.  The dependency [get_db], which opens a session for a
    request and closes it afterwards, is the caller's business and is not
    part of the handlers. *)

From Stdlib Require Import ZArith List String Bool Lia.
Import ListNotations.

Local Open Scope string_scope.
Local Open Scope Z_scope.

(** ** Outcomes of a handler *)

(** [fastapi.HTTPException(status_code=..., detail=...)]. *)
Record HTTPException : Type := mkHTTPException
  { status_code : Z;
    detail : string }.

(** Outcome of a route handler: a returned value or a raised exception. *)
Inductive Result (A : Type) : Type :=
| Return (a : A)
| Raise (e : HTTPException).

Arguments Return {A} a.
Arguments Raise {A} e.

(** The error taxonomy of the service and the status signalling of the
    transport: 400 for a uniqueness conflict, 404 for a missing identifier,
    anything else is an internal failure. *)
Inductive ErrorKind : Type := Conflict | NotFound | Internal.

Definition error_kind (e : HTTPException) : ErrorKind :=
  if status_code e =? 400 then Conflict
  else if status_code e =? 404 then NotFound
  else Internal.

(** ** Data model of the user service *)

Module User.
(** Modelled from the spec: the ORM entity [User] (app/models is not part of
    the sources).  An integer identifier, a username, an email, and the
    profile fields the spec names as examples: a display name and a password
    credential. *)
Record t : Type := mk
  { id : Z;
    email : string;
    username : string;
    display_name : string;
    password : string }.
End User.

Module UserCreate.
(** Modelled from the spec: the request schema [UserCreate] (app/schemas is
    not part of the sources): the email, the username and the profile
    fields. *)
Record t : Type := mk
  { email : string;
    username : string;
    display_name : string;
    password : string }.
End UserCreate.

(** The fields of a User that an update can address. *)
Inductive Field : Type := Email | Username | DisplayName | Password.

Definition Field_eqb (f g : Field) : bool :=
  match f, g with
  | Email, Email | Username, Username
  | DisplayName, DisplayName | Password, Password => true
  | _, _ => false
  end.

Module UserUpdate.
(** Modelled from the spec: the request schema [UserUpdate] (app/schemas is
    not part of the sources): a structure where every field is an
    absent-able value; [None] is an absent field. *)
Record t : Type := mk
  { email : option string;
    username : option string;
    display_name : option string;
    password : option string }.

(** The value an update supplies for a field, if any. *)
Definition get (f : Field) (upd : t) : option string :=
  match f with
  | Email => email upd
  | Username => username upd
  | DisplayName => display_name upd
  | Password => password upd
  end.

(** The update that supplies exactly the field [f], with value [v]. *)
Definition only (f : Field) (v : string) : t :=
  match f with
  | Email => mk (Some v) None None None
  | Username => mk None (Some v) None None
  | DisplayName => mk None None (Some v) None
  | Password => mk None None None (Some v)
  end.
End UserUpdate.

Module UserOut.
(** Modelled from the spec: the response schema [UserOut] (app/schemas is not
    part of the sources): the representation of a User without its
    credential field. *)
Record t : Type := mk
  { id : Z;
    email : string;
    username : string;
    display_name : string }.

(** What [response_model=UserOut] keeps of an ORM [User]. *)
Definition from_orm (u : User.t) : t :=
  mk (User.id u) (User.email u) (User.username u) (User.display_name u).
End UserOut.

(** The stored value of a field of a User. *)
Definition User_get (f : Field) (u : User.t) : string :=
  match f with
  | Email => User.email u
  | Username => User.username u
  | DisplayName => User.display_name u
  | Password => User.password u
  end.

(** Modelled from the spec: the store behind a [Session] (app/db is not part
    of the sources): the user records in store order, and the next
    identifier to assign, so that an identifier is not reused after a
    deletion. *)
Record Session : Type := mkSession
  { users : list User.t;
    next_id : Z }.

(** ** The CRUD collaborator [app.crud.user] *)

Module crud_user.

(** Modelled from the spec: [crud.user.get_user_by_email] (app/crud is not
    part of the sources): the exact-match filter on email, first row. *)
Definition get_user_by_email (db : Session) (email : string)
  : option User.t :=
  find (fun u => String.eqb (User.email u) email) (users db).

(** Modelled from the spec: [crud.user.get_user_by_username] (app/crud is
    not part of the sources): the exact-match filter on username, first
    row. *)
Definition get_user_by_username (db : Session) (username : string)
  : option User.t :=
  find (fun u => String.eqb (User.username u) username) (users db).

(** Modelled from the spec: [crud.user.get_user_by_id] (app/crud is not
    part of the sources): the primary-key lookup. *)
Definition get_user_by_id (db : Session) (user_id : Z) : option User.t :=
  find (fun u => User.id u =? user_id) (users db).

(** Modelled from the spec: [crud.user.get_users] (app/crud is not part of
    the sources): the offset/limit range scan, skipping [skip] records of
    the full result set and returning at most [limit] of the rest.  The
    spec speaks of non-negative arguments only; a negative one counts
    as 0 here. *)
Definition get_users (db : Session) (skip limit : Z) : list User.t :=
  firstn (Z.to_nat limit) (skipn (Z.to_nat skip) (users db)).

(** Modelled from the spec: [crud.user.create_user] (app/crud is not part
    of the sources): persists the new record under a fresh identifier and
    returns it. *)
Definition create_user (db : Session) (user : UserCreate.t)
  : User.t * Session :=
  let db_user :=
    User.mk (next_id db) (UserCreate.email user) (UserCreate.username user)
      (UserCreate.display_name user) (UserCreate.password user) in
  (db_user, mkSession (users db ++ [db_user]) (next_id db + 1)).

(** One field of the record after a partial update: the supplied value
    when the field is present in the input, the stored one otherwise. *)
Definition set_field (f : Field) (user_update : UserUpdate.t)
    (db_user : User.t) : string :=
  match UserUpdate.get f user_update with
  | Some v => v
  | None => User_get f db_user
  end.

(** Modelled from the spec: [crud.user.update_user] (app/crud is not part
    of the sources): every field present in the partial input overwrites
    the stored field, absent fields are left untouched; the identifier is
    immutable.  The row of [db_user] is the one rewritten. *)
Definition update_user (db : Session) (db_user : User.t)
    (user_update : UserUpdate.t) : User.t * Session :=
  let updated :=
    User.mk (User.id db_user)
      (set_field Email user_update db_user)
      (set_field Username user_update db_user)
      (set_field DisplayName user_update db_user)
      (set_field Password user_update db_user) in
  (updated,
   mkSession
     (map (fun u => if User.id u =? User.id db_user then updated else u)
        (users db))
     (next_id db)).

(** Modelled from the spec: [crud.user.delete_user] (app/crud is not part
    of the sources): permanent removal of the row of [db_user]. *)
Definition delete_user (db : Session) (db_user : User.t) : Session :=
  mkSession
    (filter (fun u => negb (User.id u =? User.id db_user)) (users db))
    (next_id db).

End crud_user.

(** ** The route handlers of [app/api/user.py] *)

(** [POST /users/]: the email lookup first, the username lookup second, the
    insertion last. *)
Definition create_user (user : UserCreate.t) (db : Session)
  : Result UserOut.t * Session :=
  match crud_user.get_user_by_email db (UserCreate.email user) with
  | Some _ => (Raise (mkHTTPException 400 "Email already registered"), db)
  | None =>
    match crud_user.get_user_by_username db (UserCreate.username user) with
    | Some _ =>
      (Raise (mkHTTPException 400 "Username already registered"), db)
    | None =>
      let (db_user, db') := crud_user.create_user db user in
      (Return (UserOut.from_orm db_user), db')
    end
  end.

(** [GET /users/{user_id}]. *)
Definition get_user (user_id : Z) (db : Session)
  : Result UserOut.t * Session :=
  match crud_user.get_user_by_id db user_id with
  | None => (Raise (mkHTTPException 404 "User not found"), db)
  | Some db_user => (Return (UserOut.from_orm db_user), db)
  end.

(** [GET /users/]: [skip] and [limit] are query parameters with defaults
    [skip: int = 0] and [limit: int = 100]; [None] is a parameter the
    request does not give. *)
Definition get_users (skip limit : option Z) (db : Session)
  : Result (list UserOut.t) * Session :=
  let skip := match skip with Some n => n | None => 0 end in
  let limit := match limit with Some n => n | None => 100 end in
  (Return (map UserOut.from_orm (crud_user.get_users db skip limit)), db).

(** [PUT /users/{user_id}]. *)
Definition update_user (user_id : Z) (user_update : UserUpdate.t)
    (db : Session) : Result UserOut.t * Session :=
  match crud_user.get_user_by_id db user_id with
  | None => (Raise (mkHTTPException 404 "User not found"), db)
  | Some db_user =>
    let (updated, db') := crud_user.update_user db db_user user_update in
    (Return (UserOut.from_orm updated), db')
  end.

(** [DELETE /users/{user_id}]: returns [None] (status 204) on success. *)
Definition delete_user (user_id : Z) (db : Session)
  : Result unit * Session :=
  match crud_user.get_user_by_id db user_id with
  | None => (Raise (mkHTTPException 404 "User not found"), db)
  | Some db_user => (Return tt, crud_user.delete_user db db_user)
  end.

(** ** Invariants of the store *)

(** Identifiers are a primary key, and every assigned identifier lies below
    the next one to assign. *)
Definition session_ok (db : Session) : Prop :=
  NoDup (map User.id (users db)) /\
  Forall (fun u => User.id u < next_id db) (users db).

(** Exactly one User per email value. *)
Definition unique_emails (db : Session) : Prop :=
  NoDup (map User.email (users db)).

(** Exactly one User per username value. *)
Definition unique_usernames (db : Session) : Prop :=
  NoDup (map User.username (users db)).

(** The empty store of a fresh process. *)
Definition empty_session : Session := mkSession [] 1.

(** The scenario store: users (1, a@x.com, alice) and (2, b@x.com, bob). *)
Definition seed2 : Session :=
  mkSession
    [ User.mk 1 "a@x.com" "alice" "Alice" "pw-a";
      User.mk 2 "b@x.com" "bob" "Bob" "pw-b" ]
    3.

(** A store with five seeded users. *)
Definition seed5 : Session :=
  mkSession
    [ User.mk 1 "a@x.com" "alice" "Alice" "pw-a";
      User.mk 2 "b@x.com" "bob" "Bob" "pw-b";
      User.mk 3 "c@x.com" "carol" "Carol" "pw-c";
      User.mk 4 "d@x.com" "dave" "Dave" "pw-d";
      User.mk 5 "e@x.com" "erin" "Erin" "pw-e" ]
    6.

(** ** Data model of the school service ([school-management/main.py]) *)

Module Subject.
(** The ORM entity [Subject]: an integer primary key and three [String]
    columns, which are nullable ([None] is SQL NULL). *)
Record t : Type := mk
  { id : Z;
    name : option string;
    duration : option string;
    department : option string }.
End Subject.

Module TeachingFaculty.
(** The ORM entity [TeachingFaculty]. *)
Record t : Type := mk
  { id : Z;
    course : option string;
    faculty : option string }.
End TeachingFaculty.

(** The two tables a school [Session] queries, each in store order. *)
Record SchoolSession : Type := mkSchoolSession
  { query_Subject : list Subject.t;
    query_TeachingFaculty : list TeachingFaculty.t }.

(** The dictionary under the key ["subject"] of an output record. *)
Record SubjectDict : Type := mkSubjectDict
  { subject_id : Z;
    subject_name : option string;
    subject_duration : option string;
    subject_department : option string }.

(** One output record: the keys ["subject"] and ["faculty"]. *)
Record SubjectFaculty : Type := mkSubjectFaculty
  { subject : SubjectDict;
    faculty : option string }.

(** The filter criterion [column == value] of SQLAlchemy: string equality,
    byte for byte, for a string value, and [IS NULL] for [None]. *)
Definition column_eq (column value : option string) : bool :=
  match column, value with
  | Some c, Some v => String.eqb c v
  | None, None => true
  | _, _ => false
  end.

(** [Query.first()]: the first row of the result, or [None]. *)
Definition first {A : Type} (rows : list A) : option A :=
  match rows with
  | [] => None
  | r :: _ => Some r
  end.

(** [list_of_subject_faculty_teaching(db)]: the loop over all subjects,
    appending one dictionary per subject to [result]. *)
Definition list_of_subject_faculty_teaching (db : SchoolSession)
  : list SubjectFaculty :=
  let subjects := query_Subject db in
  fold_left
    (fun result subject =>
       let faculty_record :=
         first
           (filter
              (fun t => column_eq (TeachingFaculty.course t)
                          (Subject.name subject))
              (query_TeachingFaculty db)) in
       let faculty :=
         match faculty_record with
         | Some r => TeachingFaculty.faculty r
         | None => None
         end in
       (result ++
          [ mkSubjectFaculty
              (mkSubjectDict (Subject.id subject) (Subject.name subject)
                 (Subject.duration subject) (Subject.department subject))
              faculty ])%list)
    subjects [].

(** The data of [populate_db.py]. *)
Definition populated : SchoolSession :=
  mkSchoolSession
    [ Subject.mk 1 (Some "Mathematics") (Some "6 months") (Some "Science");
      Subject.mk 2 (Some "Physics") (Some "6 months") (Some "Science");
      Subject.mk 3 (Some "Chemistry") (Some "6 months") (Some "Science") ]
    [ TeachingFaculty.mk 1 (Some "Mathematics") (Some "Dr. Smith");
      TeachingFaculty.mk 2 (Some "Physics") (Some "Dr. Johnson");
      TeachingFaculty.mk 3 (Some "Chemistry") (Some "Dr. Lee") ].

(** A spec-side reading of the join, to compare the loop with: the faculty
    of the first record of [rows] whose course is [name], if there is one. *)
Fixpoint first_match (name : option string) (rows : list TeachingFaculty.t)
  : option TeachingFaculty.t :=
  match rows with
  | [] => None
  | t :: rest =>
    if column_eq (TeachingFaculty.course t) name then Some t
    else first_match name rest
  end.

(** The pairing the spec asks of an output record [r] for a subject [s]:
    [r] carries the subject, and its faculty is the faculty of the first
    record of [rows] whose course is exactly the subject's name, or there is
    no such record and [r] has no faculty. *)
Definition joined (rows : list TeachingFaculty.t) (s : Subject.t)
    (r : SubjectFaculty) : Prop :=
  subject r =
    mkSubjectDict (Subject.id s) (Subject.name s) (Subject.duration s)
      (Subject.department s) /\
  ((exists (j : nat) (t : TeachingFaculty.t),
       nth_error rows j = Some t /\
       TeachingFaculty.course t = Subject.name s /\
       (forall k t', (k < j)%nat -> nth_error rows k = Some t' ->
                     TeachingFaculty.course t' <> Subject.name s) /\
       faculty r = TeachingFaculty.faculty t)
   \/
   ((forall t, In t rows -> TeachingFaculty.course t <> Subject.name s) /\
    faculty r = None)).

(** The faculty the loop pairs with a subject of name [name]. *)
Definition faculty_of (rows : list TeachingFaculty.t) (name : option string)
  : option string :=
  match first_match name rows with
  | Some t => TeachingFaculty.faculty t
  | None => None
  end.

(** ** The route [GET /subjects-faculty] and its response schema *)

Module SubjectResponse.
(** The Pydantic model [SubjectResponse]: [id: int] and three [str] fields,
    all required. *)
Record t : Type := mk
  { id : Z;
    name : string;
    duration : string;
    department : string }.
End SubjectResponse.

Module SubjectFacultyResponse.
(** The Pydantic model [SubjectFacultyResponse]: [subject: SubjectResponse]
    and [faculty: str]. *)
Record t : Type := mk
  { subject : SubjectResponse.t;
    faculty : string }.
End SubjectFacultyResponse.

(** Validation of the dictionary under ["subject"] against
    [SubjectResponse]: a [str] field does not take [None]. *)
Definition validate_SubjectResponse (d : SubjectDict)
  : option SubjectResponse.t :=
  match subject_name d, subject_duration d, subject_department d with
  | Some name, Some duration, Some department =>
    Some (SubjectResponse.mk (subject_id d) name duration department)
  | _, _, _ => None
  end.

(** Validation of one output record against [SubjectFacultyResponse]. *)
Definition validate_SubjectFacultyResponse (r : SubjectFaculty)
  : option SubjectFacultyResponse.t :=
  match validate_SubjectResponse (subject r), faculty r with
  | Some s, Some f => Some (SubjectFacultyResponse.mk s f)
  | _, _ => None
  end.

(** Validation against [list[SubjectFacultyResponse]]: every item has to
    validate. *)
Fixpoint validate_response (result : list SubjectFaculty)
  : option (list SubjectFacultyResponse.t) :=
  match result with
  | [] => Some []
  | r :: rest =>
    match validate_SubjectFacultyResponse r, validate_response rest with
    | Some v, Some vs => Some (v :: vs)
    | _, _ => None
    end
  end.

(** [get_subjects_faculty(db)], declared with
    [response_model=list[SubjectFacultyResponse]]: what the function returns
    is validated against the schema before it is sent.  [None] is a
    response that fails validation: the request ends in a server error. *)
Definition get_subjects_faculty (db : SchoolSession)
  : option (list SubjectFacultyResponse.t) :=
  validate_response (list_of_subject_faculty_teaching db).

(** ** The script [populate_db.py] *)

(** The list [subjects] of the script. *)
Definition subjects_data : list Subject.t :=
  [ Subject.mk 1 (Some "Mathematics") (Some "6 months") (Some "Science");
    Subject.mk 2 (Some "Physics") (Some "6 months") (Some "Science");
    Subject.mk 3 (Some "Chemistry") (Some "6 months") (Some "Science") ].

(** The list [teaching_faculty] of the script: course and faculty. *)
Definition teaching_faculty_data : list (string * string) :=
  [ ("Mathematics", "Dr. Smith");
    ("Physics", "Dr. Johnson");
    ("Chemistry", "Dr. Lee") ].

(** Insertion of a [Subject] that brings its own primary key: the table is
    kept in key order, and a key already present is an integrity error
    ([None]). *)
Fixpoint insert_Subject (s : Subject.t) (rows : list Subject.t)
  : option (list Subject.t) :=
  match rows with
  | [] => Some [s]
  | r :: rest =>
    if Subject.id s =? Subject.id r then None
    else if Subject.id s <? Subject.id r then Some (s :: rows)
    else option_map (cons r) (insert_Subject s rest)
  end.

(** The key SQLite gives a [TeachingFaculty] inserted without one: one more
    than the largest key of the table, 1 on an empty table. *)
Definition next_rowid (rows : list TeachingFaculty.t) : Z :=
  1 + fold_right Z.max 0 (map TeachingFaculty.id rows).

(** [db.add(Subject(...))] for each element of [subjects], in order. *)
Definition add_subjects (data : list Subject.t) (db : SchoolSession)
  : option SchoolSession :=
  fold_left
    (fun acc subject_data =>
       match acc with
       | None => None
       | Some db =>
         option_map
           (fun rows => mkSchoolSession rows (query_TeachingFaculty db))
           (insert_Subject subject_data (query_Subject db))
       end)
    data (Some db).

(** [db.add(TeachingFaculty(course=..., faculty=...))] for each element of
    [teaching_faculty], in order. *)
Definition add_teaching_faculty (data : list (string * string))
    (db : SchoolSession) : SchoolSession :=
  fold_left
    (fun db faculty_data =>
       let rows := query_TeachingFaculty db in
       mkSchoolSession (query_Subject db)
         (rows ++
            [ TeachingFaculty.mk (next_rowid rows)
                (Some (fst faculty_data)) (Some (snd faculty_data)) ])%list)
    data db.

(** The script: both tables are cleared, the subjects and the teaching
    faculty are inserted and the whole is committed; the second component
    holds the two counts the script reads back.  On an exception the work
    is rolled back: the session is as it was, and nothing is counted. *)
Definition populate_db (db : SchoolSession)
  : SchoolSession * option (nat * nat) :=
  let cleared := mkSchoolSession [] [] in
  match add_subjects subjects_data cleared with
  | Some with_subjects =>
    let db' := add_teaching_faculty teaching_faculty_data with_subjects in
    (db',
     Some (List.length (query_Subject db'),
           List.length (query_TeachingFaculty db')))
  | None => (db, None)
  end.

(** * Properties *)

(** ** Lookups *)

Lemma find_some_iff {A} (p : A -> bool) (l : list A) :
  (exists x, In x l /\ p x = true) <-> (exists y, find p l = Some y).
Proof.
  split.
  - intros [x [Hin Hp]].
    destruct (find p l) as [y|] eqn:E; [now exists y|].
    now rewrite (find_none p l E x Hin) in Hp.
  - intros [y Hy]. exists y. now apply find_some in Hy.
Qed.

Lemma find_none_iff {A} (p : A -> bool) (l : list A) :
  (forall x, In x l -> p x = false) <-> find p l = None.
Proof.
  split.
  - intros H. destruct (find p l) as [y|] eqn:E; [|reflexivity].
    apply find_some in E. destruct E as [Hin Hp].
    now rewrite (H y Hin) in Hp.
  - intros E x Hin. exact (find_none p l E x Hin).
Qed.

Lemma get_user_by_email_some db e :
  (exists u, In u (users db) /\ User.email u = e) <->
  (exists u, crud_user.get_user_by_email db e = Some u).
Proof.
  unfold crud_user.get_user_by_email. rewrite <- find_some_iff.
  split; intros [u [Hin H]]; exists u; split; auto;
    now apply String.eqb_eq.
Qed.

Lemma get_user_by_email_none db e :
  (forall u, In u (users db) -> User.email u <> e) <->
  crud_user.get_user_by_email db e = None.
Proof.
  unfold crud_user.get_user_by_email. rewrite <- find_none_iff.
  split; intros H u Hin; specialize (H u Hin).
  - now apply String.eqb_neq.
  - now apply String.eqb_neq in H.
Qed.

Lemma get_user_by_username_some db n :
  (exists u, In u (users db) /\ User.username u = n) <->
  (exists u, crud_user.get_user_by_username db n = Some u).
Proof.
  unfold crud_user.get_user_by_username. rewrite <- find_some_iff.
  split; intros [u [Hin H]]; exists u; split; auto;
    now apply String.eqb_eq.
Qed.

Lemma get_user_by_username_none db n :
  (forall u, In u (users db) -> User.username u <> n) <->
  crud_user.get_user_by_username db n = None.
Proof.
  unfold crud_user.get_user_by_username. rewrite <- find_none_iff.
  split; intros H u Hin; specialize (H u Hin).
  - now apply String.eqb_neq.
  - now apply String.eqb_neq in H.
Qed.

Lemma get_user_by_id_some db i u :
  crud_user.get_user_by_id db i = Some u -> In u (users db) /\ User.id u = i.
Proof.
  unfold crud_user.get_user_by_id. intros H. apply find_some in H.
  destruct H as [Hin H]. split; auto. now apply Z.eqb_eq.
Qed.

Lemma get_user_by_id_exists db i :
  (exists u, In u (users db) /\ User.id u = i) <->
  (exists u, crud_user.get_user_by_id db i = Some u).
Proof.
  unfold crud_user.get_user_by_id. rewrite <- find_some_iff.
  split; intros [u [Hin H]]; exists u; split; auto; now apply Z.eqb_eq.
Qed.

Lemma get_user_by_id_none db i :
  (forall u, In u (users db) -> User.id u <> i) <->
  crud_user.get_user_by_id db i = None.
Proof.
  unfold crud_user.get_user_by_id. rewrite <- find_none_iff.
  split; intros H u Hin; specialize (H u Hin).
  - now apply Z.eqb_neq.
  - now apply Z.eqb_neq in H.
Qed.

(** ** Creation: conflicts *)

(** C1: whenever some existing User has the requested email or some existing
    User has the requested username, [create_user] fails with a Conflict.
    The email is looked up first: when a User has the requested email the
    email conflict is the one reported, whether or not the username is taken
    too; the username conflict is reported only when no User has the
    email. *)
Theorem create_user_conflict (db : Session) (user : UserCreate.t) :
  (exists u, In u (users db) /\
     (User.email u = UserCreate.email user \/
      User.username u = UserCreate.username user)) ->
  exists e,
    fst (create_user user db) = Raise e /\
    error_kind e = Conflict /\
    ((exists u, In u (users db) /\ User.email u = UserCreate.email user) ->
     e = mkHTTPException 400 "Email already registered") /\
    ((forall u, In u (users db) -> User.email u <> UserCreate.email user) ->
     e = mkHTTPException 400 "Username already registered").
Proof.
  intros [u [Hin Hdup]]. unfold create_user.
  destruct (crud_user.get_user_by_email db (UserCreate.email user))
    as [byemail|] eqn:Eemail.
  - exists (mkHTTPException 400 "Email already registered").
    repeat split; auto.
    intros Hno. apply get_user_by_email_none in Hno. congruence.
  - pose proof (proj2 (get_user_by_email_none db _) Eemail) as Hno.
    destruct Hdup as [Hdup|Hdup]; [now elim (Hno u Hin)|].
    destruct (proj1 (get_user_by_username_some db _)
                (ex_intro _ u (conj Hin Hdup))) as [byname Ename].
    rewrite Ename.
    exists (mkHTTPException 400 "Username already registered").
    repeat split; auto.
    intros [v [Hv Hemail]]. now elim (Hno v Hv).
Qed.

(** The scenario of the spec at a request whose email and username are both
    taken: the email conflict is the one reported. *)
Lemma create_user_conflict_witness :
  exists e,
    fst (create_user (UserCreate.mk "a@x.com" "bob" "Eve" "pw") seed2)
      = Raise e /\
    error_kind e = Conflict /\
    ((exists u, In u (users seed2) /\ User.email u = "a@x.com") ->
     e = mkHTTPException 400 "Email already registered") /\
    ((forall u, In u (users seed2) -> User.email u <> "a@x.com") ->
     e = mkHTTPException 400 "Username already registered").
Proof.
  apply (create_user_conflict seed2 (UserCreate.mk "a@x.com" "bob" "Eve" "pw")).
  exists (User.mk 2 "b@x.com" "bob" "Bob" "pw-b").
  split; [simpl; auto | right; reflexivity].
Defined.

(** C8: when [create_user] fails with a Conflict the session it leaves
    behind is the one it was given: no record is inserted and the record
    count is the same. *)
Theorem create_user_conflict_unchanged (db : Session) (user : UserCreate.t)
    (e : HTTPException) :
  fst (create_user user db) = Raise e ->
  error_kind e = Conflict ->
  snd (create_user user db) = db /\
  users (snd (create_user user db)) = users db /\
  List.length (users (snd (create_user user db))) = List.length (users db).
Proof.
  unfold create_user. intros Hraise _.
  destruct (crud_user.get_user_by_email db (UserCreate.email user));
    [now repeat split|].
  destruct (crud_user.get_user_by_username db (UserCreate.username user));
    [now repeat split|].
  simpl in Hraise. discriminate.
Qed.

Lemma create_user_conflict_unchanged_witness :
  snd (create_user (UserCreate.mk "c@x.com" "bob" "Carol" "pw") seed2)
    = seed2 /\
  users (snd (create_user (UserCreate.mk "c@x.com" "bob" "Carol" "pw") seed2))
    = users seed2 /\
  List.length
    (users (snd (create_user (UserCreate.mk "c@x.com" "bob" "Carol" "pw")
                   seed2)))
    = List.length (users seed2).
Proof.
  apply (create_user_conflict_unchanged seed2
           (UserCreate.mk "c@x.com" "bob" "Carol" "pw")
           (mkHTTPException 400 "Username already registered"));
    reflexivity.
Defined.

(** ** Missing identifiers *)

(** C6: when no User has the identifier, [get_user], [update_user] and
    [delete_user] each fail with NotFound (and leave the session as it
    was). *)
Theorem missing_id_not_found (db : Session) (user_id : Z)
    (user_update : UserUpdate.t) :
  (forall u, In u (users db) -> User.id u <> user_id) ->
  let e := mkHTTPException 404 "User not found" in
  error_kind e = NotFound /\
  get_user user_id db = (Raise e, db) /\
  update_user user_id user_update db = (Raise e, db) /\
  delete_user user_id db = (Raise e, db).
Proof.
  intros Hno. apply get_user_by_id_none in Hno.
  unfold get_user, update_user, delete_user. rewrite Hno.
  repeat split.
Qed.

Lemma missing_id_not_found_witness :
  let e := mkHTTPException 404 "User not found" in
  error_kind e = NotFound /\
  get_user 7 seed2 = (Raise e, seed2) /\
  update_user 7 (UserUpdate.only Email "z@x.com") seed2 = (Raise e, seed2) /\
  delete_user 7 seed2 = (Raise e, seed2).
Proof.
  apply (missing_id_not_found seed2 7 (UserUpdate.only Email "z@x.com")).
  intros u Hin. simpl in Hin.
  destruct Hin as [<-|[<-|[]]]; simpl; lia.
Defined.

(** ** The primary key *)

Lemma find_id_NoDup (l : list User.t) (u : User.t) :
  NoDup (map User.id l) -> In u l ->
  find (fun r => User.id r =? User.id u) l = Some u.
Proof.
  induction l as [|a l IH]; simpl; intros Hnd Hin; [contradiction|].
  inversion Hnd as [|? ? Hnotin Hnd']; subst.
  destruct (Z.eqb_spec (User.id a) (User.id u)) as [Heq|Hne].
  - destruct Hin as [->|Hin]; [reflexivity|].
    elim Hnotin. rewrite Heq. now apply in_map.
  - destruct Hin as [->|Hin]; [congruence|]. now apply IH.
Qed.

Lemma get_user_by_id_In db u :
  session_ok db -> In u (users db) ->
  crud_user.get_user_by_id db (User.id u) = Some u.
Proof.
  intros [Hnd _] Hin. now apply find_id_NoDup.
Qed.

Lemma find_app_last {A} (p : A -> bool) (l : list A) (y : A) :
  (forall x, In x l -> p x = false) -> p y = true ->
  find p (l ++ [y]) = Some y.
Proof.
  induction l as [|a l IH]; simpl; intros Hl Hy.
  - now rewrite Hy.
  - rewrite (Hl a (or_introl eq_refl)). apply IH; auto.
Qed.

(** Rewriting the rows of identifier [i] with a record of that identifier:
    what a primary-key lookup sees afterwards. *)
Lemma find_id_rewritten (l : list User.t) (i j : Z) (updated : User.t) :
  User.id updated = i ->
  find (fun r => User.id r =? j)
    (map (fun r => if User.id r =? i then updated else r) l)
  = if j =? i
    then option_map (fun _ => updated) (find (fun r => User.id r =? i) l)
    else find (fun r => User.id r =? j) l.
Proof.
  intros Hid. induction l as [|a l IH]; simpl.
  - now destruct (j =? i).
  - rewrite IH. clear IH. subst i.
    destruct (Z.eqb_spec (User.id a) (User.id updated));
      repeat match goal with
             | |- context [?x =? ?y] => destruct (Z.eqb_spec x y)
             end; simpl; congruence.
Qed.

Lemma map_id_rewritten (l : list User.t) (i : Z) (updated : User.t) :
  User.id updated = i ->
  map User.id (map (fun r => if User.id r =? i then updated else r) l)
  = map User.id l.
Proof.
  intros Hid. induction l as [|a l IH]; simpl; [reflexivity|].
  rewrite IH. f_equal.
  destruct (Z.eqb_spec (User.id a) i); congruence.
Qed.

(** ** The store invariant is kept by every handler *)

Lemma session_ok_empty : session_ok empty_session.
Proof. split; constructor. Qed.

Lemma create_user_ok (db : Session) (user : UserCreate.t) :
  session_ok db -> session_ok (snd (create_user user db)).
Proof.
  intros [Hnd Hlt]. unfold create_user.
  destruct (crud_user.get_user_by_email db _); [now split|].
  destruct (crud_user.get_user_by_username db _); [now split|].
  simpl. split; simpl.
  - rewrite map_app. simpl.
    apply NoDup_app; [assumption | repeat constructor; intros [] |].
    intros i Hi [Hj|[]]. subst i.
    apply in_map_iff in Hi. destruct Hi as [u [Hu Hin]].
    rewrite Forall_forall in Hlt. specialize (Hlt u Hin). lia.
  - apply Forall_app. split.
    + eapply Forall_impl; [|exact Hlt]. simpl. intros; lia.
    + repeat constructor. simpl. lia.
Qed.

Lemma update_user_ok (db : Session) (user_id : Z) (upd : UserUpdate.t) :
  session_ok db -> session_ok (snd (update_user user_id upd db)).
Proof.
  intros [Hnd Hlt]. unfold update_user.
  destruct (crud_user.get_user_by_id db user_id) as [u|] eqn:E; [|now split].
  apply get_user_by_id_some in E. destruct E as [Hin Hid].
  simpl. split; simpl.
  - now rewrite map_id_rewritten.
  - rewrite Forall_forall in *. intros r Hr.
    apply in_map_iff in Hr. destruct Hr as [r0 [Hr0 Hin0]].
    destruct (User.id r0 =? User.id u); subst r; auto.
    simpl. exact (Hlt u Hin).
Qed.

Lemma delete_user_ok (db : Session) (user_id : Z) :
  session_ok db -> session_ok (snd (delete_user user_id db)).
Proof.
  intros [Hnd Hlt]. unfold delete_user.
  destruct (crud_user.get_user_by_id db user_id) as [u|]; [|now split].
  simpl. split; simpl.
  - clear Hlt. induction (users db) as [|a l IH]; simpl; [constructor|].
    inversion Hnd as [|? ? Hnotin Hnd']; subst.
    destruct (negb (User.id a =? User.id u)); auto.
    simpl. constructor; auto.
    intros Hin. apply Hnotin.
    apply in_map_iff in Hin. destruct Hin as [r [Hr Hin]].
    apply filter_In in Hin. rewrite <- Hr. apply in_map. tauto.
  - rewrite Forall_forall in *. intros r Hr.
    apply filter_In in Hr. apply Hlt. tauto.
Qed.

(** X4: creation keeps the two uniqueness invariants of the data model: on
    a session with one User per email and one User per username,
    [create_user] leaves a session with one User per email and one User per
    username, whether it inserts or raises. *)
Lemma create_user_unique (db : Session) (user : UserCreate.t) :
  unique_emails db /\ unique_usernames db ->
  unique_emails (snd (create_user user db)) /\
  unique_usernames (snd (create_user user db)).
Proof.
  intros [He Hn]. unfold create_user.
  destruct (crud_user.get_user_by_email db _) eqn:Eemail; [now split|].
  destruct (crud_user.get_user_by_username db _) eqn:Ename; [now split|].
  pose proof (proj2 (get_user_by_email_none _ _) Eemail) as Hemail.
  pose proof (proj2 (get_user_by_username_none _ _) Ename) as Hname.
  unfold unique_emails, unique_usernames. simpl. rewrite !map_app. simpl.
  split; (apply NoDup_app; [assumption | repeat constructor; intros [] |]);
    intros x Hx [<-|[]]; apply in_map_iff in Hx;
    destruct Hx as [u [Hu Hin]].
  - exact (Hemail u Hin Hu).
  - exact (Hname u Hin Hu).
Qed.

(** ** Creation followed by a read *)

(** C5: for a valid input (no existing User has the email, none has the
    username) [create_user] succeeds under a fresh identifier, and
    [get_user] on that identifier returns a User whose email, username and
    display name are the submitted ones; the stored record holds the
    submitted credential too. *)
Theorem create_then_get (db : Session) (user : UserCreate.t) :
  session_ok db ->
  (forall u, In u (users db) -> User.email u <> UserCreate.email user) ->
  (forall u, In u (users db) -> User.username u <> UserCreate.username user) ->
  exists (new : UserOut.t) (stored : User.t) (db' : Session),
    create_user user db = (Return new, db') /\
    (forall u, In u (users db) -> User.id u <> UserOut.id new) /\
    get_user (UserOut.id new) db' = (Return new, db') /\
    UserOut.email new = UserCreate.email user /\
    UserOut.username new = UserCreate.username user /\
    UserOut.display_name new = UserCreate.display_name user /\
    crud_user.get_user_by_id db' (UserOut.id new) = Some stored /\
    User.password stored = UserCreate.password user.
Proof.
  intros [_ Hlt] Hemail Hname.
  apply get_user_by_email_none in Hemail.
  apply get_user_by_username_none in Hname.
  rewrite Forall_forall in Hlt.
  set (stored := User.mk (next_id db) (UserCreate.email user)
                   (UserCreate.username user) (UserCreate.display_name user)
                   (UserCreate.password user)).
  assert (Hfind : crud_user.get_user_by_id
                    (mkSession (users db ++ [stored]) (next_id db + 1))
                    (next_id db) = Some stored).
  { unfold crud_user.get_user_by_id. simpl. apply find_app_last.
    - intros x Hx. apply Z.eqb_neq. specialize (Hlt x Hx). lia.
    - apply Z.eqb_refl. }
  exists (UserOut.from_orm stored), stored,
    (mkSession (users db ++ [stored]) (next_id db + 1)).
  unfold create_user, get_user. rewrite Hemail, Hname. simpl.
  fold stored. rewrite Hfind.
  repeat split; auto.
  intros u Hu. specialize (Hlt u Hu). lia.
Qed.

(** The scenario of the spec: on the two seeded users the request
    ("c@x.com", "carol") succeeds. *)
Lemma create_then_get_witness :
  exists (new : UserOut.t) (stored : User.t) (db' : Session),
    create_user (UserCreate.mk "c@x.com" "carol" "Carol" "pw-c") seed2
      = (Return new, db') /\
    (forall u, In u (users seed2) -> User.id u <> UserOut.id new) /\
    get_user (UserOut.id new) db' = (Return new, db') /\
    UserOut.email new = "c@x.com" /\
    UserOut.username new = "carol" /\
    UserOut.display_name new = "Carol" /\
    crud_user.get_user_by_id db' (UserOut.id new) = Some stored /\
    User.password stored = "pw-c".
Proof.
  apply (create_then_get seed2
           (UserCreate.mk "c@x.com" "carol" "Carol" "pw-c")).
  - split; simpl.
    + repeat constructor; simpl; intuition discriminate.
    + repeat constructor; simpl; lia.
  - intros u Hin. simpl in Hin.
    destruct Hin as [<-|[<-|[]]]; simpl; discriminate.
  - intros u Hin. simpl in Hin.
    destruct Hin as [<-|[<-|[]]]; simpl; discriminate.
Defined.

(** The scenario's fresh identifier is 3. *)
Example create_user_seed2_id :
  fst (create_user (UserCreate.mk "c@x.com" "carol" "Carol" "pw-c") seed2)
  = Return (UserOut.mk 3 "c@x.com" "carol" "Carol").
Proof. reflexivity. Qed.

(** ** Deletion followed by a read *)

(** C7: deleting an existing User succeeds and removes its record: no record
    of the session left behind has the identifier, every other record is
    kept, and a following [get_user] on the identifier fails with
    NotFound. *)
Theorem delete_then_get (db : Session) (user_id : Z) :
  (exists u, In u (users db) /\ User.id u = user_id) ->
  exists db',
    delete_user user_id db = (Return tt, db') /\
    (forall u, In u (users db') <-> In u (users db) /\ User.id u <> user_id) /\
    exists e,
      get_user user_id db' = (Raise e, db') /\ error_kind e = NotFound.
Proof.
  intros Hex. apply get_user_by_id_exists in Hex.
  destruct Hex as [db_user Hfind].
  pose proof (get_user_by_id_some _ _ _ Hfind) as [_ Hid].
  exists (crud_user.delete_user db db_user).
  assert (Hrows : forall u,
             In u (users (crud_user.delete_user db db_user)) <->
             In u (users db) /\ User.id u <> user_id).
  { intros u. simpl. rewrite filter_In, Hid, negb_true_iff, Z.eqb_neq.
    reflexivity. }
  unfold delete_user. rewrite Hfind. repeat split; try apply Hrows; auto.
  exists (mkHTTPException 404 "User not found").
  unfold get_user.
  replace (crud_user.get_user_by_id (crud_user.delete_user db db_user)
             user_id) with (@None User.t); [now split|].
  symmetry. apply get_user_by_id_none.
  intros u Hu. now apply Hrows in Hu.
Qed.

Lemma delete_then_get_witness :
  exists db',
    delete_user 2 seed2 = (Return tt, db') /\
    (forall u, In u (users db') <-> In u (users seed2) /\ User.id u <> 2) /\
    exists e,
      get_user 2 db' = (Raise e, db') /\ error_kind e = NotFound.
Proof.
  apply (delete_then_get seed2 2).
  exists (User.mk 2 "b@x.com" "bob" "Bob" "pw-b").
  split; [simpl; auto | reflexivity].
Defined.

(** ** Partial update *)

Lemma User_get_set_field (f : Field) (user_update : UserUpdate.t)
    (db_user : User.t) :
  User_get f
    (User.mk (User.id db_user)
       (crud_user.set_field Email user_update db_user)
       (crud_user.set_field Username user_update db_user)
       (crud_user.set_field DisplayName user_update db_user)
       (crud_user.set_field Password user_update db_user))
  = crud_user.set_field f user_update db_user.
Proof. now destruct f. Qed.

(** C2: for an existing User [u], [update_user] on its identifier succeeds,
    and the record stored under that identifier afterwards has, field by
    field, the supplied value where the input supplies one and the value of
    [u] where the input is absent; the identifier is kept.  In particular an
    input with only the field [f] set gives a record that has the supplied
    value at [f] and agrees with [u] everywhere else.  The records under
    other identifiers, the record count and the next identifier are as
    before. *)
Theorem update_user_partial (db : Session) (u : User.t)
    (user_update : UserUpdate.t) :
  session_ok db ->
  In u (users db) ->
  exists (updated : User.t) (db' : Session),
    update_user (User.id u) user_update db
      = (Return (UserOut.from_orm updated), db') /\
    crud_user.get_user_by_id db' (User.id u) = Some updated /\
    User.id updated = User.id u /\
    (forall f,
        User_get f updated =
        match UserUpdate.get f user_update with
        | Some v => v
        | None => User_get f u
        end) /\
    (forall f v, user_update = UserUpdate.only f v ->
       forall g,
         User_get g updated = if Field_eqb g f then v else User_get g u) /\
    (forall j, j <> User.id u ->
       crud_user.get_user_by_id db' j = crud_user.get_user_by_id db j) /\
    List.length (users db') = List.length (users db) /\
    next_id db' = next_id db.
Proof.
  intros Hok Hin.
  pose proof (get_user_by_id_In db u Hok Hin) as Hfind.
  destruct (crud_user.update_user db u user_update) as [updated db'] eqn:E.
  exists updated, db'.
  unfold update_user. rewrite Hfind, E.
  unfold crud_user.update_user in E. injection E as Eu Edb.
  assert (Hid : User.id updated = User.id u) by now subst updated.
  assert (Hfields : forall f,
             User_get f updated = crud_user.set_field f user_update u).
  { intros f. subst updated. apply User_get_set_field. }
  assert (Hlookup : forall j,
             crud_user.get_user_by_id db' j =
             if j =? User.id u
             then option_map (fun _ => updated)
                    (crud_user.get_user_by_id db (User.id u))
             else crud_user.get_user_by_id db j).
  { intros j. subst db'. unfold crud_user.get_user_by_id. simpl.
    rewrite Eu. now apply find_id_rewritten. }
  repeat split; auto.
  - rewrite Hlookup, Z.eqb_refl, Hfind. reflexivity.
  - intros f v -> g. rewrite Hfields. unfold crud_user.set_field.
    now destruct f, g.
  - intros j Hj. rewrite Hlookup.
    now destruct (Z.eqb_spec j (User.id u)).
  - subst db'. simpl. apply length_map.
  - now subst db'.
Qed.

(** On the two seeded users, changing only the display name of user 2. *)
Lemma update_user_partial_witness :
  exists (updated : User.t) (db' : Session),
    update_user 2 (UserUpdate.only DisplayName "Robert") seed2
      = (Return (UserOut.from_orm updated), db') /\
    crud_user.get_user_by_id db' 2 = Some updated /\
    User.id updated = 2 /\
    (forall f,
        User_get f updated =
        match UserUpdate.get f (UserUpdate.only DisplayName "Robert") with
        | Some v => v
        | None => User_get f (User.mk 2 "b@x.com" "bob" "Bob" "pw-b")
        end) /\
    (forall f v, UserUpdate.only DisplayName "Robert" = UserUpdate.only f v ->
       forall g,
         User_get g updated =
         if Field_eqb g f then v
         else User_get g (User.mk 2 "b@x.com" "bob" "Bob" "pw-b")) /\
    (forall j, j <> 2 ->
       crud_user.get_user_by_id db' j = crud_user.get_user_by_id seed2 j) /\
    List.length (users db') = List.length (users seed2) /\
    next_id db' = next_id seed2.
Proof.
  apply (update_user_partial seed2 (User.mk 2 "b@x.com" "bob" "Bob" "pw-b")
           (UserUpdate.only DisplayName "Robert")).
  - split; simpl.
    + repeat constructor; simpl; intuition discriminate.
    + repeat constructor; simpl; lia.
  - simpl; auto.
Defined.

(** Full-record comparison before and after, on the two seeded users. *)
Example update_user_seed2_display_name :
  users (snd (update_user 2 (UserUpdate.only DisplayName "Robert") seed2))
  = [ User.mk 1 "a@x.com" "alice" "Alice" "pw-a";
      User.mk 2 "b@x.com" "bob" "Robert" "pw-b" ].
Proof. reflexivity. Qed.

(** C4: [update_user] does not re-validate uniqueness.  There is a session
    satisfying the store invariant, with one User per email and one User per
    username, and an update that succeeds on it and leaves two Users, of
    different identifiers, with the same email; the one-User-per-email
    invariant no longer holds. *)
Theorem update_user_can_duplicate :
  exists (db : Session) (user_id : Z) (user_update : UserUpdate.t)
         (updated : UserOut.t) (db' : Session),
    session_ok db /\ unique_emails db /\ unique_usernames db /\
    update_user user_id user_update db = (Return updated, db') /\
    (exists u1 u2,
        In u1 (users db') /\ In u2 (users db') /\
        User.id u1 <> User.id u2 /\
        (User.email u1 = User.email u2 \/
         User.username u1 = User.username u2)) /\
    ~ unique_emails db'.
Proof.
  exists seed2, 2, (UserUpdate.only Email "a@x.com").
  eexists. eexists.
  split; [|split; [|split; [|split; [reflexivity|split]]]].
  - split; simpl; repeat constructor; simpl; try lia; intuition discriminate.
  - unfold unique_emails. simpl.
    repeat constructor; simpl; intuition discriminate.
  - unfold unique_usernames. simpl.
    repeat constructor; simpl; intuition discriminate.
  - exists (User.mk 1 "a@x.com" "alice" "Alice" "pw-a"),
      (User.mk 2 "a@x.com" "bob" "Bob" "pw-b").
    simpl. repeat split; auto. discriminate.
  - unfold unique_emails. simpl. intros Hnd.
    inversion Hnd as [|? ? Hnotin _]. apply Hnotin. simpl. auto.
Qed.

(** ** Listing *)

Lemma length_get_users (db : Session) (skip limit : Z) :
  0 <= skip -> 0 <= limit ->
  Z.of_nat (List.length (crud_user.get_users db skip limit))
  = Z.min limit (Z.max 0 (Z.of_nat (List.length (users db)) - skip)).
Proof.
  intros Hs Hl. unfold crud_user.get_users.
  rewrite length_firstn, length_skipn. lia.
Qed.

Lemma nth_error_get_users (db : Session) (skip limit : Z) (i : nat) :
  (i < List.length (crud_user.get_users db skip limit))%nat ->
  nth_error (crud_user.get_users db skip limit) i
  = nth_error (users db) (Z.to_nat skip + i).
Proof.
  unfold crud_user.get_users. intros Hi.
  rewrite length_firstn in Hi.
  rewrite nth_error_firstn, nth_error_skipn.
  destruct (Nat.ltb_spec i (Z.to_nat limit)); [reflexivity | lia].
Qed.

(** C3: for non-negative [skip] and [limit], [get_users] never fails and
    leaves the session as it was; the page it returns has at most [limit]
    records, namely [min limit (count - skip)] of them (none when [skip]
    reaches the record count), and its record at position [i] is the record
    at position [skip + i] of the full result set. *)
Theorem get_users_page (db : Session) (skip limit : Z) :
  0 <= skip -> 0 <= limit ->
  exists page,
    get_users (Some skip) (Some limit) db = (Return page, db) /\
    Z.of_nat (List.length page) <= limit /\
    Z.of_nat (List.length page)
      = Z.min limit (Z.max 0 (Z.of_nat (List.length (users db)) - skip)) /\
    (forall i, (i < List.length page)%nat ->
       nth_error page i =
       option_map UserOut.from_orm
         (nth_error (users db) (Z.to_nat skip + i))) /\
    (Z.of_nat (List.length (users db)) <= skip -> page = []).
Proof.
  intros Hs Hl.
  exists (map UserOut.from_orm (crud_user.get_users db skip limit)).
  pose proof (length_get_users db skip limit Hs Hl) as Hlen.
  split; [reflexivity|]. rewrite length_map.
  split; [lia|]. split; [exact Hlen|]. split.
  - intros i Hi. rewrite nth_error_map. f_equal.
    now apply nth_error_get_users.
  - intros Hbig.
    assert (H0 : List.length (crud_user.get_users db skip limit) = 0%nat)
      by lia.
    apply length_zero_iff_nil in H0. now rewrite H0.
Qed.

(** On five seeded users, [skip = 4] and [limit = 2]. *)
Lemma get_users_page_witness :
  exists page,
    get_users (Some 4) (Some 2) seed5 = (Return page, seed5) /\
    Z.of_nat (List.length page) <= 2 /\
    Z.of_nat (List.length page)
      = Z.min 2 (Z.max 0 (Z.of_nat (List.length (users seed5)) - 4)) /\
    (forall i, (i < List.length page)%nat ->
       nth_error page i =
       option_map UserOut.from_orm
         (nth_error (users seed5) (Z.to_nat 4 + i))) /\
    (Z.of_nat (List.length (users seed5)) <= 4 -> page = []).
Proof.
  apply (get_users_page seed5 4 2); lia.
Defined.

(** The three pages of the spec on five seeded users. *)
Example get_users_seed5_0_2 :
  fst (get_users (Some 0) (Some 2) seed5)
  = Return [ UserOut.mk 1 "a@x.com" "alice" "Alice";
             UserOut.mk 2 "b@x.com" "bob" "Bob" ].
Proof. reflexivity. Qed.

Example get_users_seed5_4_2 :
  fst (get_users (Some 4) (Some 2) seed5)
  = Return [ UserOut.mk 5 "e@x.com" "erin" "Erin" ].
Proof. reflexivity. Qed.

Example get_users_seed5_10_2 :
  fst (get_users (Some 10) (Some 2) seed5) = Return [].
Proof. reflexivity. Qed.

(** C10: without an explicit [skip] or [limit], [get_users] is [get_users]
    at [skip = 0] and [limit = 100]: it never fails, skips no record (the
    page is a prefix of the full result set) and returns at most 100
    records, all of them when there are no more than 100. *)
Theorem get_users_defaults (db : Session) :
  get_users None None db = get_users (Some 0) (Some 100) db /\
  exists page,
    get_users None None db = (Return page, db) /\
    (List.length page <= 100)%nat /\
    List.length page = Nat.min 100 (List.length (users db)) /\
    (forall i, (i < List.length page)%nat ->
       nth_error page i =
       option_map UserOut.from_orm (nth_error (users db) i)).
Proof.
  split; [reflexivity|].
  exists (map UserOut.from_orm (crud_user.get_users db 0 100)).
  assert (Hlen := length_get_users db 0 100 ltac:(lia) ltac:(lia)).
  split; [reflexivity|]. rewrite length_map.
  split; [lia|]. split; [lia|].
  intros i Hi. rewrite nth_error_map. f_equal.
  now rewrite nth_error_get_users.
Qed.

(** ** The subjects/faculty join *)

Lemma column_eq_spec (column value : option string) :
  column_eq column value = true <-> column = value.
Proof.
  destruct column as [c|], value as [v|]; simpl;
    try (split; intros; congruence).
  rewrite String.eqb_eq. split; congruence.
Qed.

(** [filter] then [first] is a scan for the first matching record. *)
Lemma first_filter (name : option string) (rows : list TeachingFaculty.t) :
  first (filter (fun t => column_eq (TeachingFaculty.course t) name) rows)
  = first_match name rows.
Proof.
  induction rows as [|t rows IH]; simpl; [reflexivity|].
  now destruct (column_eq (TeachingFaculty.course t) name).
Qed.

Lemma first_match_some (name : option string)
    (rows : list TeachingFaculty.t) (t : TeachingFaculty.t) :
  first_match name rows = Some t ->
  exists j,
    nth_error rows j = Some t /\
    TeachingFaculty.course t = name /\
    forall k t', (k < j)%nat -> nth_error rows k = Some t' ->
                 TeachingFaculty.course t' <> name.
Proof.
  induction rows as [|a rows IH]; simpl; [discriminate|].
  destruct (column_eq (TeachingFaculty.course a) name) eqn:E.
  - intros [= ->]. exists 0%nat. apply column_eq_spec in E.
    repeat split; auto. intros k t' Hk. lia.
  - intros H. destruct (IH H) as [j [Hj [Hc Hbefore]]].
    exists (S j). repeat split; auto.
    intros [|k] t' Hk; simpl.
    + intros [= <-] Heq. apply column_eq_spec in Heq. congruence.
    + apply Hbefore. lia.
Qed.

Lemma first_match_none (name : option string)
    (rows : list TeachingFaculty.t) :
  first_match name rows = None ->
  forall t, In t rows -> TeachingFaculty.course t <> name.
Proof.
  induction rows as [|a rows IH]; simpl; [contradiction|].
  destruct (column_eq (TeachingFaculty.course a) name) eqn:E;
    [discriminate|].
  intros H t [<-|Hin]; auto.
  intros Heq. apply column_eq_spec in Heq. congruence.
Qed.

(** The accumulating loop appends one item per element. *)
Lemma fold_left_append {A B} (item : A -> B) (l : list A) (result : list B) :
  fold_left (fun result x => (result ++ [item x])%list) l result
  = (result ++ map item l)%list.
Proof.
  revert result. induction l as [|x l IH]; intros result; simpl.
  - now rewrite app_nil_r.
  - rewrite IH, <- app_assoc. reflexivity.
Qed.

(** C9: [list_of_subject_faculty_teaching] produces exactly one output
    record per Subject, in the order of the subjects; the record of a
    subject carries the subject's columns and is paired with the faculty of
    the first TeachingFaculty record whose course is exactly (byte for byte,
    so case-sensitively) the subject's name, or with no faculty when no
    TeachingFaculty record has that course. *)
Theorem subject_faculty_join (db : SchoolSession) :
  List.length (list_of_subject_faculty_teaching db)
    = List.length (query_Subject db) /\
  Forall2 (joined (query_TeachingFaculty db))
    (query_Subject db) (list_of_subject_faculty_teaching db).
Proof.
  unfold list_of_subject_faculty_teaching.
  rewrite fold_left_append. simpl.
  split; [apply length_map|].
  induction (query_Subject db) as [|s l IH]; simpl; constructor; auto.
  clear IH. unfold joined. simpl. split; [reflexivity|].
  rewrite first_filter.
  destruct (first_match (Subject.name s) (query_TeachingFaculty db))
    as [t|] eqn:E.
  - left. destruct (first_match_some _ _ _ E) as [j [Hj [Hc Hbefore]]].
    exists j, t. auto.
  - right. split; [|reflexivity]. now apply first_match_none.
Qed.

(** The listing on the data of [populate_db.py]. *)
Example subject_faculty_populated :
  list_of_subject_faculty_teaching populated
  = [ mkSubjectFaculty
        (mkSubjectDict 1 (Some "Mathematics") (Some "6 months")
           (Some "Science"))
        (Some "Dr. Smith");
      mkSubjectFaculty
        (mkSubjectDict 2 (Some "Physics") (Some "6 months") (Some "Science"))
        (Some "Dr. Johnson");
      mkSubjectFaculty
        (mkSubjectDict 3 (Some "Chemistry") (Some "6 months")
           (Some "Science"))
        (Some "Dr. Lee") ].
Proof. reflexivity. Qed.

(** The match is case-sensitive and takes the first record only. *)
Example subject_faculty_case_and_first :
  list_of_subject_faculty_teaching
    (mkSchoolSession
       [ Subject.mk 1 (Some "Physics") None None;
         Subject.mk 2 (Some "Biology") None None ]
       [ TeachingFaculty.mk 1 (Some "physics") (Some "Dr. Lower");
         TeachingFaculty.mk 2 (Some "Physics") (Some "Dr. First");
         TeachingFaculty.mk 3 (Some "Physics") (Some "Dr. Second") ])
  = [ mkSubjectFaculty (mkSubjectDict 1 (Some "Physics") None None)
        (Some "Dr. First");
      mkSubjectFaculty (mkSubjectDict 2 (Some "Biology") None None) None ].
Proof. reflexivity. Qed.

(** * Further properties of the handlers *)

(** ** Outcomes *)

(** X1: [create_user] succeeds exactly when no existing User has the
    requested email and none has the requested username; whatever it raises
    has status 400, a Conflict. *)
Theorem create_user_outcome (db : Session) (user : UserCreate.t) :
  ((exists out, fst (create_user user db) = Return out) <->
   (forall u, In u (users db) ->
      User.email u <> UserCreate.email user /\
      User.username u <> UserCreate.username user)) /\
  (forall e, fst (create_user user db) = Raise e ->
     status_code e = 400 /\ error_kind e = Conflict).
Proof.
  unfold create_user.
  destruct (crud_user.get_user_by_email db (UserCreate.email user))
    as [a|] eqn:Eemail.
  - apply find_some in Eemail. destruct Eemail as [Hin Heq].
    apply String.eqb_eq in Heq. simpl. split; [split|].
    + intros [out H]. discriminate.
    + intros H. now elim (proj1 (H a Hin)).
    + intros e [= <-]. now split.
  - pose proof (proj2 (get_user_by_email_none _ _) Eemail) as Hemail.
    destruct (crud_user.get_user_by_username db (UserCreate.username user))
      as [b|] eqn:Ename.
    + apply find_some in Ename. destruct Ename as [Hin Heq].
      apply String.eqb_eq in Heq. simpl. split; [split|].
      * intros [out H]. discriminate.
      * intros H. now elim (proj2 (H b Hin)).
      * intros e [= <-]. now split.
    + pose proof (proj2 (get_user_by_username_none _ _) Ename) as Hname.
      simpl. split; [split|].
      * intros _ u Hin. split; auto.
      * intros _. eexists. reflexivity.
      * intros e H. discriminate.
Qed.

(** X2: [get_user], [update_user] and [delete_user] succeed exactly when a
    User has the identifier; whatever they raise has status 404, a
    NotFound. *)
Theorem by_id_outcome (db : Session) (user_id : Z)
    (user_update : UserUpdate.t) :
  ((exists out, fst (get_user user_id db) = Return out) <->
   (exists u, In u (users db) /\ User.id u = user_id)) /\
  ((exists out, fst (update_user user_id user_update db) = Return out) <->
   (exists u, In u (users db) /\ User.id u = user_id)) /\
  (fst (delete_user user_id db) = Return tt <->
   (exists u, In u (users db) /\ User.id u = user_id)) /\
  (forall e,
     fst (get_user user_id db) = Raise e \/
     fst (update_user user_id user_update db) = Raise e \/
     fst (delete_user user_id db) = Raise e ->
     status_code e = 404 /\ error_kind e = NotFound).
Proof.
  rewrite get_user_by_id_exists.
  unfold get_user, update_user, delete_user.
  destruct (crud_user.get_user_by_id db user_id) as [u|]; simpl.
  - split; [|split; [|split]].
    + split; intros _; eexists; reflexivity.
    + split; intros _; eexists; reflexivity.
    + split; intros _; [eexists|]; reflexivity.
    + intros e [H|[H|H]]; discriminate.
  - split; [|split; [|split]].
    + split; intros [? H]; discriminate.
    + split; intros [? H]; discriminate.
    + split; [intros H|intros [? H]]; discriminate.
    + intros e [H|[H|H]]; injection H as <-; now split.
Qed.

(** X3: no handler writes on its error path, and the two reading handlers
    never write: [get_user] and [get_users] always leave the session as it
    was, and so does each of [create_user], [update_user] and [delete_user]
    when it raises. *)
Theorem raise_leaves_session (db : Session) (user : UserCreate.t)
    (user_id : Z) (user_update : UserUpdate.t) (skip limit : option Z) :
  snd (get_user user_id db) = db /\
  snd (get_users skip limit db) = db /\
  (forall e, fst (create_user user db) = Raise e ->
     snd (create_user user db) = db) /\
  (forall e, fst (update_user user_id user_update db) = Raise e ->
     snd (update_user user_id user_update db) = db) /\
  (forall e, fst (delete_user user_id db) = Raise e ->
     snd (delete_user user_id db) = db).
Proof.
  unfold get_user, get_users, create_user, update_user, delete_user.
  destruct (crud_user.get_user_by_id db user_id);
    destruct (crud_user.get_user_by_email db (UserCreate.email user));
    destruct (crud_user.get_user_by_username db (UserCreate.username user));
    simpl; repeat split; auto; intros e H; discriminate.
Qed.

(** ** Invariants *)

Lemma create_user_unique_witness :
  unique_emails
    (snd (create_user (UserCreate.mk "c@x.com" "carol" "Carol" "pw-c")
            seed2)) /\
  unique_usernames
    (snd (create_user (UserCreate.mk "c@x.com" "carol" "Carol" "pw-c")
            seed2)).
Proof.
  apply (create_user_unique seed2
           (UserCreate.mk "c@x.com" "carol" "Carol" "pw-c")).
  split; [unfold unique_emails | unfold unique_usernames]; simpl;
    repeat constructor; simpl; intuition discriminate.
Defined.

(** Every handler keeps the store invariant: when the identifiers are
    pairwise different and all below the next identifier to assign, they
    still are in the session each of the five handlers leaves behind. *)
Theorem handlers_keep_session_ok (db : Session) (user : UserCreate.t)
    (user_id : Z) (user_update : UserUpdate.t) (skip limit : option Z) :
  session_ok db ->
  session_ok (snd (create_user user db)) /\
  session_ok (snd (get_user user_id db)) /\
  session_ok (snd (get_users skip limit db)) /\
  session_ok (snd (update_user user_id user_update db)) /\
  session_ok (snd (delete_user user_id db)).
Proof.
  intros Hok.
  split; [now apply create_user_ok|].
  split; [unfold get_user;
          now destruct (crud_user.get_user_by_id db user_id)|].
  split; [exact Hok|].
  split; [now apply update_user_ok | now apply delete_user_ok].
Qed.

(** ** Compositions *)

(** X5: a read after an update sees the update: when [update_user] returns
    a representation, [get_user] on the same identifier, in the session the
    update leaves behind, returns that very representation. *)
Theorem update_then_get (db db' : Session) (user_id : Z)
    (user_update : UserUpdate.t) (out : UserOut.t) :
  update_user user_id user_update db = (Return out, db') ->
  get_user user_id db' = (Return out, db').
Proof.
  unfold update_user.
  destruct (crud_user.get_user_by_id db user_id) as [u|] eqn:E;
    [|discriminate].
  pose proof (get_user_by_id_some _ _ _ E) as [_ Hid].
  unfold crud_user.update_user. intros [= <- <-].
  unfold get_user, crud_user.get_user_by_id. simpl.
  rewrite find_id_rewritten by reflexivity.
  rewrite Hid, Z.eqb_refl.
  unfold crud_user.get_user_by_id in E. now rewrite E.
Qed.

Lemma update_then_get_witness :
  get_user 2
    (mkSession
       [ User.mk 1 "a@x.com" "alice" "Alice" "pw-a";
         User.mk 2 "b@x.com" "bob" "Robert" "pw-b" ] 3)
  = (Return (UserOut.mk 2 "b@x.com" "bob" "Robert"),
     mkSession
       [ User.mk 1 "a@x.com" "alice" "Alice" "pw-a";
         User.mk 2 "b@x.com" "bob" "Robert" "pw-b" ] 3).
Proof.
  apply (update_then_get seed2 _ 2 (UserUpdate.only DisplayName "Robert")).
  reflexivity.
Defined.

(** Under a primary key, two records of the table with one identifier are
    one record. *)
Lemma same_id_same_record (l : list User.t) (r u : User.t) :
  NoDup (map User.id l) -> In r l -> In u l -> User.id r = User.id u ->
  r = u.
Proof.
  intros Hnd Hr Hu Hid.
  pose proof (find_id_NoDup l r Hnd Hr) as Fr.
  pose proof (find_id_NoDup l u Hnd Hu) as Fu.
  rewrite Hid in Fr. congruence.
Qed.

(** X6: an update that supplies no field changes nothing: on an existing
    User it succeeds, returns the representation of the User as stored, and
    leaves the session as it was. *)
Theorem update_user_nothing (db : Session) (u : User.t) :
  session_ok db ->
  In u (users db) ->
  update_user (User.id u) (UserUpdate.mk None None None None) db
  = (Return (UserOut.from_orm u), db).
Proof.
  intros Hok Hin. unfold update_user.
  rewrite (get_user_by_id_In db u Hok Hin).
  unfold crud_user.update_user, crud_user.set_field. simpl.
  assert (Hu : User.mk (User.id u) (User.email u) (User.username u)
                 (User.display_name u) (User.password u) = u)
    by now destruct u.
  rewrite Hu. f_equal. destruct db as [rows next]. simpl in *. f_equal.
  rewrite <- (map_id rows) at 2. apply map_ext_in. intros r Hr.
  destruct (Z.eqb_spec (User.id r) (User.id u)) as [Heq|]; [|reflexivity].
  symmetry. exact (same_id_same_record rows r u (proj1 Hok) Hr Hin Heq).
Qed.

Lemma update_user_nothing_witness :
  update_user 2 (UserUpdate.mk None None None None) seed2
  = (Return (UserOut.mk 2 "b@x.com" "bob" "Bob"), seed2).
Proof.
  apply (update_user_nothing seed2 (User.mk 2 "b@x.com" "bob" "Bob" "pw-b")).
  - split; simpl.
    + repeat constructor; simpl; intuition discriminate.
    + repeat constructor; simpl; lia.
  - simpl; auto.
Defined.

(** A field of an updated record, updated again with the same input. *)
Lemma set_field_again (f : Field) (user_update : UserUpdate.t)
    (u : User.t) :
  crud_user.set_field f user_update
    (User.mk (User.id u)
       (crud_user.set_field Email user_update u)
       (crud_user.set_field Username user_update u)
       (crud_user.set_field DisplayName user_update u)
       (crud_user.set_field Password user_update u))
  = crud_user.set_field f user_update u.
Proof.
  unfold crud_user.set_field.
  destruct (UserUpdate.get f user_update) eqn:E; [reflexivity|].
  destruct f; simpl in *; now rewrite E.
Qed.

(** X7: updating is idempotent: the same update applied a second time, to
    the session the first one leaves behind, succeeds with the same
    representation and changes nothing more. *)
Theorem update_user_twice (db db' : Session) (user_id : Z)
    (user_update : UserUpdate.t) (out : UserOut.t) :
  update_user user_id user_update db = (Return out, db') ->
  update_user user_id user_update db' = (Return out, db').
Proof.
  intros H. unfold update_user in H.
  destruct (crud_user.get_user_by_id db user_id) as [u|] eqn:E;
    [|discriminate].
  pose proof (get_user_by_id_some _ _ _ E) as [_ Hid].
  unfold crud_user.update_user in H. injection H as Hout Hdb.
  set (updated :=
         User.mk (User.id u)
           (crud_user.set_field Email user_update u)
           (crud_user.set_field Username user_update u)
           (crud_user.set_field DisplayName user_update u)
           (crud_user.set_field Password user_update u)) in *.
  assert (Hfind : crud_user.get_user_by_id db' user_id = Some updated).
  { subst db'. unfold crud_user.get_user_by_id. simpl.
    rewrite find_id_rewritten by reflexivity.
    rewrite Hid, Z.eqb_refl.
    unfold crud_user.get_user_by_id in E. now rewrite E. }
  unfold update_user. rewrite Hfind.
  assert (Hagain : forall f,
             crud_user.set_field f user_update updated
             = crud_user.set_field f user_update u)
    by (intros f; apply (set_field_again f user_update u)).
  unfold crud_user.update_user. rewrite !Hagain.
  change (User.id updated) with (User.id u). fold updated.
  rewrite Hout. f_equal. subst db'. simpl. f_equal.
  rewrite map_map. apply map_ext. intros r.
  destruct (Z.eqb_spec (User.id r) (User.id u)) as [Heq|Hne]; simpl.
  - now rewrite Z.eqb_refl.
  - now destruct (Z.eqb_spec (User.id r) (User.id u)).
Qed.

Lemma update_user_twice_witness :
  update_user 2 (UserUpdate.only DisplayName "Robert")
    (mkSession
       [ User.mk 1 "a@x.com" "alice" "Alice" "pw-a";
         User.mk 2 "b@x.com" "bob" "Robert" "pw-b" ] 3)
  = (Return (UserOut.mk 2 "b@x.com" "bob" "Robert"),
     mkSession
       [ User.mk 1 "a@x.com" "alice" "Alice" "pw-a";
         User.mk 2 "b@x.com" "bob" "Robert" "pw-b" ] 3).
Proof.
  apply (update_user_twice seed2 _ 2 (UserUpdate.only DisplayName "Robert")).
  reflexivity.
Defined.

(** X8: a request that has just been accepted is refused when it is sent
    again: after a successful [create_user] the same request raises the
    email conflict, and inserts nothing. *)
Theorem create_user_twice (db db' : Session) (user : UserCreate.t)
    (out : UserOut.t) :
  create_user user db = (Return out, db') ->
  create_user user db'
  = (Raise (mkHTTPException 400 "Email already registered"), db').
Proof.
  unfold create_user at 1.
  destruct (crud_user.get_user_by_email db (UserCreate.email user));
    [discriminate|].
  destruct (crud_user.get_user_by_username db (UserCreate.username user));
    [discriminate|].
  unfold crud_user.create_user. intros [= _ <-].
  unfold create_user.
  destruct (crud_user.get_user_by_email _ (UserCreate.email user))
    as [found|] eqn:E; [reflexivity|].
  exfalso.
  pose proof (proj2 (get_user_by_email_none _ _) E) as Hno.
  eapply Hno; [simpl; apply in_or_app; right; left; reflexivity|].
  reflexivity.
Qed.

Lemma create_user_twice_witness :
  create_user (UserCreate.mk "c@x.com" "carol" "Carol" "pw-c")
    (mkSession
       [ User.mk 1 "a@x.com" "alice" "Alice" "pw-a";
         User.mk 2 "b@x.com" "bob" "Bob" "pw-b";
         User.mk 3 "c@x.com" "carol" "Carol" "pw-c" ] 4)
  = (Raise (mkHTTPException 400 "Email already registered"),
     mkSession
       [ User.mk 1 "a@x.com" "alice" "Alice" "pw-a";
         User.mk 2 "b@x.com" "bob" "Bob" "pw-b";
         User.mk 3 "c@x.com" "carol" "Carol" "pw-c" ] 4).
Proof.
  apply (create_user_twice seed2 _
           (UserCreate.mk "c@x.com" "carol" "Carol" "pw-c")
           (UserOut.mk 3 "c@x.com" "carol" "Carol")).
  reflexivity.
Defined.

(** ** Deletion *)

Lemma filter_all {A} (p : A -> bool) (l : list A) :
  (forall x, In x l -> p x = true) -> filter p l = l.
Proof.
  induction l as [|a l IH]; simpl; intros H; [reflexivity|].
  rewrite (H a (or_introl eq_refl)). f_equal. apply IH. auto.
Qed.

(** X9: [delete_user] removes exactly the record of the identifier and
    nothing else: under the primary key, the table is the old one with that
    one record taken out, the others in their order, and the next identifier
    to assign is as before. *)
Theorem delete_user_removes_one (db : Session) (u : User.t) :
  session_ok db ->
  In u (users db) ->
  exists l1 l2,
    users db = (l1 ++ u :: l2)%list /\
    delete_user (User.id u) db
    = (Return tt, mkSession (l1 ++ l2) (next_id db)) /\
    (List.length (l1 ++ l2) + 1 = List.length (users db))%nat.
Proof.
  intros Hok Hin.
  destruct (in_split u (users db) Hin) as [l1 [l2 Hsplit]].
  exists l1, l2. split; [exact Hsplit|].
  unfold delete_user. rewrite (get_user_by_id_In db u Hok Hin).
  unfold crud_user.delete_user.
  destruct Hok as [Hnd _]. rewrite Hsplit in *.
  rewrite map_app in Hnd. simpl in Hnd.
  apply NoDup_remove_2 in Hnd.
  assert (Hother : forall r, In r (l1 ++ l2) ->
                     negb (User.id r =? User.id u) = true).
  { intros r Hr. apply negb_true_iff, Z.eqb_neq. intros Heq.
    apply Hnd. rewrite <- map_app, <- Heq. now apply in_map. }
  split.
  - do 2 f_equal. rewrite filter_app. simpl. rewrite Z.eqb_refl. simpl.
    rewrite <- filter_app. now apply filter_all.
  - rewrite !length_app. simpl. lia.
Qed.

Lemma delete_user_removes_one_witness :
  exists l1 l2,
    users seed2
    = (l1 ++ User.mk 1 "a@x.com" "alice" "Alice" "pw-a" :: l2)%list /\
    delete_user 1 seed2 = (Return tt, mkSession (l1 ++ l2) (next_id seed2)) /\
    (List.length (l1 ++ l2) + 1 = List.length (users seed2))%nat.
Proof.
  apply (delete_user_removes_one seed2
           (User.mk 1 "a@x.com" "alice" "Alice" "pw-a")).
  - split; simpl.
    + repeat constructor; simpl; intuition discriminate.
    + repeat constructor; simpl; lia.
  - simpl; auto.
Defined.

(** X10: a deletion is not repeatable: after a successful [delete_user],
    [delete_user] and [update_user] on the same identifier raise the 404
    "User not found" and leave the session as the first deletion left
    it. *)
Theorem delete_user_twice (db db' : Session) (user_id : Z)
    (user_update : UserUpdate.t) :
  delete_user user_id db = (Return tt, db') ->
  delete_user user_id db'
    = (Raise (mkHTTPException 404 "User not found"), db') /\
  update_user user_id user_update db'
    = (Raise (mkHTTPException 404 "User not found"), db').
Proof.
  unfold delete_user at 1.
  destruct (crud_user.get_user_by_id db user_id) as [u|] eqn:E;
    [|discriminate].
  pose proof (get_user_by_id_some _ _ _ E) as [_ Hid].
  intros [= <-].
  assert (Hgone : crud_user.get_user_by_id (crud_user.delete_user db u)
                    user_id = None).
  { apply get_user_by_id_none. intros r Hr. simpl in Hr.
    apply filter_In in Hr. destruct Hr as [_ Hr].
    apply negb_true_iff, Z.eqb_neq in Hr. congruence. }
  unfold delete_user, update_user. now rewrite Hgone.
Qed.

Lemma delete_user_twice_witness :
  delete_user 2
    (mkSession [ User.mk 1 "a@x.com" "alice" "Alice" "pw-a" ] 3)
    = (Raise (mkHTTPException 404 "User not found"),
       mkSession [ User.mk 1 "a@x.com" "alice" "Alice" "pw-a" ] 3) /\
  update_user 2 (UserUpdate.only Email "z@x.com")
    (mkSession [ User.mk 1 "a@x.com" "alice" "Alice" "pw-a" ] 3)
    = (Raise (mkHTTPException 404 "User not found"),
       mkSession [ User.mk 1 "a@x.com" "alice" "Alice" "pw-a" ] 3).
Proof.
  apply (delete_user_twice seed2 _ 2 (UserUpdate.only Email "z@x.com")).
  reflexivity.
Defined.

(** ** Paging *)

Lemma firstn_plus {A} (a b : nat) (l : list A) :
  firstn (a + b) l = (firstn a l ++ firstn b (skipn a l))%list.
Proof.
  revert l. induction a as [|a IH]; intros l; simpl; [reflexivity|].
  destruct l as [|x l]; simpl.
  - now rewrite firstn_nil.
  - now rewrite IH.
Qed.

(** X11: consecutive pages tile the listing: for non-negative arguments,
    the page of [a] records from [skip] followed by the page of [b] records
    from [skip + a] is the page of [a + b] records from [skip]; no record is
    lost or repeated between two pages. *)
Theorem get_users_pages_concat (db : Session) (skip a b : Z) :
  0 <= skip -> 0 <= a -> 0 <= b ->
  exists p1 p2,
    get_users (Some skip) (Some a) db = (Return p1, db) /\
    get_users (Some (skip + a)) (Some b) db = (Return p2, db) /\
    get_users (Some skip) (Some (a + b)) db = (Return (p1 ++ p2)%list, db).
Proof.
  intros Hs Ha Hb. unfold get_users, crud_user.get_users.
  do 2 eexists. split; [reflexivity|]. split; [reflexivity|].
  rewrite <- map_app. do 3 f_equal.
  rewrite !Z2Nat.inj_add by lia.
  rewrite firstn_plus, skipn_skipn. do 3 f_equal. lia.
Qed.

Lemma get_users_pages_concat_witness :
  exists p1 p2,
    get_users (Some 1) (Some 2) seed5 = (Return p1, seed5) /\
    get_users (Some (1 + 2)) (Some 3) seed5 = (Return p2, seed5) /\
    get_users (Some 1) (Some (2 + 3)) seed5 = (Return (p1 ++ p2)%list, seed5).
Proof.
  apply (get_users_pages_concat seed5 1 2 3); lia.
Defined.

(** * Further properties of the school service *)

(** The loop, one subject at a time. *)
Lemma listing_as_map (db : SchoolSession) :
  list_of_subject_faculty_teaching db
  = map (fun s =>
           mkSubjectFaculty
             (mkSubjectDict (Subject.id s) (Subject.name s)
                (Subject.duration s) (Subject.department s))
             (faculty_of (query_TeachingFaculty db) (Subject.name s)))
      (query_Subject db).
Proof.
  unfold list_of_subject_faculty_teaching. rewrite fold_left_append. simpl.
  apply map_ext. intros s. unfold faculty_of. now rewrite first_filter.
Qed.

Lemma first_match_app (name : option string)
    (rows extra : list TeachingFaculty.t) :
  first_match name (rows ++ extra)
  = match first_match name rows with
    | Some t => Some t
    | None => first_match name extra
    end.
Proof.
  induction rows as [|t rows IH]; simpl; [reflexivity|].
  now destruct (column_eq (TeachingFaculty.course t) name).
Qed.

Lemma first_match_found (name : option string)
    (rows : list TeachingFaculty.t) (t : TeachingFaculty.t) :
  In t rows -> TeachingFaculty.course t = name ->
  exists t', first_match name rows = Some t'.
Proof.
  intros Hin Hc.
  destruct (first_match name rows) as [t'|] eqn:E; [now exists t'|].
  elim (first_match_none name rows E t Hin Hc).
Qed.

(** X12: the two empty tables.  Without any Subject the listing is empty,
    whatever the TeachingFaculty table holds; without any TeachingFaculty
    record the listing still has one record per Subject, each with no
    faculty. *)
Theorem listing_empty_tables (subjects : list Subject.t)
    (rows : list TeachingFaculty.t) :
  list_of_subject_faculty_teaching (mkSchoolSession [] rows) = [] /\
  List.length (list_of_subject_faculty_teaching (mkSchoolSession subjects []))
    = List.length subjects /\
  Forall (fun r => faculty r = None)
    (list_of_subject_faculty_teaching (mkSchoolSession subjects [])).
Proof.
  split; [reflexivity|]. rewrite listing_as_map. simpl.
  split; [apply length_map|].
  apply Forall_forall. intros r Hr. apply in_map_iff in Hr.
  destruct Hr as [s [<- _]]. reflexivity.
Qed.

(** X13: the faculty depends on the subject's name only: two output records
    whose subjects have the same name carry the same faculty, whatever their
    identifiers, durations and departments. *)
Theorem same_name_same_faculty (db : SchoolSession)
    (r1 r2 : SubjectFaculty) :
  In r1 (list_of_subject_faculty_teaching db) ->
  In r2 (list_of_subject_faculty_teaching db) ->
  subject_name (subject r1) = subject_name (subject r2) ->
  faculty r1 = faculty r2.
Proof.
  rewrite listing_as_map. intros H1 H2.
  apply in_map_iff in H1. destruct H1 as [s1 [<- _]].
  apply in_map_iff in H2. destruct H2 as [s2 [<- _]].
  simpl. now intros ->.
Qed.

Lemma same_name_same_faculty_witness :
  faculty
    (mkSubjectFaculty (mkSubjectDict 1 (Some "Physics") None None)
       (Some "Dr. First"))
  = faculty
      (mkSubjectFaculty
         (mkSubjectDict 2 (Some "Physics") (Some "1 year") None)
         (Some "Dr. First")).
Proof.
  apply (same_name_same_faculty
           (mkSchoolSession
              [ Subject.mk 1 (Some "Physics") None None;
                Subject.mk 2 (Some "Physics") (Some "1 year") None ]
              [ TeachingFaculty.mk 1 (Some "Physics") (Some "Dr. First");
                TeachingFaculty.mk 2 (Some "Physics") (Some "Dr. Second") ])).
  - simpl. auto.
  - simpl. auto.
  - reflexivity.
Defined.

(** X14: only the first matching record counts: when every Subject already
    has a TeachingFaculty record of its name, records added after the
    existing ones change nothing in the listing. *)
Theorem later_records_ignored (subjects : list Subject.t)
    (rows extra : list TeachingFaculty.t) :
  (forall s, In s subjects ->
     exists t, In t rows /\ TeachingFaculty.course t = Subject.name s) ->
  list_of_subject_faculty_teaching (mkSchoolSession subjects (rows ++ extra))
  = list_of_subject_faculty_teaching (mkSchoolSession subjects rows).
Proof.
  intros Hall. rewrite !listing_as_map. simpl.
  apply map_ext_in. intros s Hs. f_equal.
  destruct (Hall s Hs) as [t [Hin Hc]].
  destruct (first_match_found _ _ _ Hin Hc) as [t' Ht'].
  unfold faculty_of. now rewrite first_match_app, Ht'.
Qed.

Lemma later_records_ignored_witness :
  list_of_subject_faculty_teaching
    (mkSchoolSession (query_Subject populated)
       (query_TeachingFaculty populated ++
          [ TeachingFaculty.mk 4 (Some "Physics") (Some "Dr. Late") ]))
  = list_of_subject_faculty_teaching
      (mkSchoolSession (query_Subject populated)
         (query_TeachingFaculty populated)).
Proof.
  apply (later_records_ignored (query_Subject populated)
           (query_TeachingFaculty populated)
           [ TeachingFaculty.mk 4 (Some "Physics") (Some "Dr. Late") ]).
  intros s Hs. simpl in Hs.
  destruct Hs as [<-|[<-|[<-|[]]]]; simpl.
  - exists (TeachingFaculty.mk 1 (Some "Mathematics") (Some "Dr. Smith")).
    auto.
  - exists (TeachingFaculty.mk 2 (Some "Physics") (Some "Dr. Johnson")).
    auto.
  - exists (TeachingFaculty.mk 3 (Some "Chemistry") (Some "Dr. Lee")).
    auto.
Defined.

(** ** The route and its response schema *)






(** A subject without teaching faculty makes the route fail. *)
Example get_subjects_faculty_unmatched :
  get_subjects_faculty
    (mkSchoolSession
       (query_Subject populated ++
          [ Subject.mk 4 (Some "Biology") (Some "6 months")
              (Some "Science") ])
       (query_TeachingFaculty populated))
  = None.
Proof. reflexivity. Qed.

(** ** The population script *)

(** X16: [populate_db] replaces whatever the two tables held: from every
    session it commits the same three subjects and three teaching faculty
    records, reads back the counts 3 and 3, and never takes its rollback
    path; after it the route answers with the three subjects, each with its
    faculty. *)
Theorem populate_db_replaces (db : SchoolSession) :
  populate_db db = (populated, Some (3%nat, 3%nat)) /\
  get_subjects_faculty (fst (populate_db db))
  = Some
      [ SubjectFacultyResponse.mk
          (SubjectResponse.mk 1 "Mathematics" "6 months" "Science")
          "Dr. Smith";
        SubjectFacultyResponse.mk
          (SubjectResponse.mk 2 "Physics" "6 months" "Science")
          "Dr. Johnson";
        SubjectFacultyResponse.mk
          (SubjectResponse.mk 3 "Chemistry" "6 months" "Science")
          "Dr. Lee" ].
Proof. split; reflexivity. Qed.
